(** * sparkwarehouse: the SCD merge entry point and the attribute decorator

    A shallow embedding of the two Python modules of the repository,

    - [scd_merge.py]: the module docstring (the SCD type definitions with
      their worked examples) and the function [scd_merge];
    - [add_attributes.py]: the decorator [add_attr] and the module-level
      statements that register extensions on [DataFrame];

    over a small model of the Python run time: objects, exceptions, name
    resolution through the local, global and builtin scopes, and the
    binding of positional arguments at a call. *)

From Stdlib Require Import ZArith.
From stdpp Require Import gmap strings list fin_maps.

#[local] Set Warnings "-register-all".

Local Open Scope string_scope.
Local Open Scope Z_scope.

(** ** The Python run time the two modules rely on *)

Module Py.

(** A cell of a table: the docstring's tables hold identifiers, dates
    (written [2022-01-01]), integers and [null]. *)
Inductive cell : Type :=
  | Null
  | Int (z : Z)
  | Str (s : string).

#[global] Instance cell_eq_dec : EqDecision cell.
Proof. solve_decision. Defined.

(** A table as the docstring prints it: a header and the rows under it. *)
Record DataFrame : Type := mkDataFrame {
  columns : list string;
  rows : list (list cell)
}.

(** Objects.  Functions, classes and builtins are known by their name;
    a property object remembers its getter; [PObject] is any other
    object of the interpreter, known by a description. *)
Inductive pyobj : Type :=
  | PNone
  | PInt (z : Z)
  | PStr (s : string)
  | PList (items : list pyobj)
  | PDict (items : list (string * pyobj))
  | PFrame (df : DataFrame)
  | PFunction (qualname : string)
  | PClass (qualname : string)
  | PBuiltin (name : string)
  | PProperty (fget : pyobj)
  | PObject (description : string).

(** Exceptions, with the data their message is built from. *)
Inductive exn : Type :=
  | NameError (name : string)
  | TypeError_missing (func : string) (missing : list string)
  | TypeError_too_many (func : string) (takes given : nat)
  | TypeError_unexpected_keyword (func keyword : string)
  | TypeError_setattr (attr : string)
  | AttributeError (attr : string)
  | ModuleNotFoundError (module : string)
  | ImportError (module name : string)
  | UserError (cls : string).

#[global] Instance exn_eq_dec : EqDecision exn.
Proof. solve_decision. Defined.

(** The name of the class of an exception, as [type(e).__name__]. *)
Definition exn_class (e : exn) : string :=
  match e with
  | NameError _ => "NameError"
  | TypeError_missing _ _ | TypeError_too_many _ _ _
  | TypeError_unexpected_keyword _ _ | TypeError_setattr _ => "TypeError"
  | AttributeError _ => "AttributeError"
  | ModuleNotFoundError _ => "ModuleNotFoundError"
  | ImportError _ _ => "ImportError"
  | UserError cls => cls
  end.

(** The outcome of evaluating an expression or calling a function. *)
Inductive outcome (A : Type) : Type :=
  | Return (a : A)
  | Raise (e : exn).
Arguments Return {A} a.
Arguments Raise {A} e.

#[global] Instance outcome_ret : MRet outcome := @Return.
#[global] Instance outcome_bind : MBind outcome := λ A B f m,
  match m with
  | Return a => f a
  | Raise e => Raise e
  end.

Definition returns {A} (m : outcome A) : bool :=
  match m with Return _ => true | Raise _ => false end.

(** [raises_class m c]: the evaluation raised an exception of class [c]. *)
Definition raises_class {A} (m : outcome A) (c : string) : bool :=
  match m with
  | Return _ => false
  | Raise e => bool_decide (exn_class e = c)
  end.

(** The names of the [builtins] module (functions, constants and
    exception classes). *)
Definition builtin_names : list string :=
  [ "abs"; "aiter"; "all"; "anext"; "any"; "ascii"; "bin"; "bool";
    "breakpoint"; "bytearray"; "bytes"; "callable"; "chr"; "classmethod";
    "compile"; "complex"; "copyright"; "credits"; "delattr"; "dict"; "dir";
    "divmod"; "enumerate"; "eval"; "exec"; "exit"; "filter"; "float";
    "format"; "frozenset"; "getattr"; "globals"; "hasattr"; "hash"; "help";
    "hex"; "id"; "input"; "int"; "isinstance"; "issubclass"; "iter"; "len";
    "license"; "list"; "locals"; "map"; "max"; "memoryview"; "min"; "next";
    "object"; "oct"; "open"; "ord"; "pow"; "print"; "property"; "quit";
    "range"; "repr"; "reversed"; "round"; "set"; "setattr"; "slice";
    "sorted"; "staticmethod"; "str"; "sum"; "super"; "tuple"; "type";
    "vars"; "zip"; "__import__"; "__build_class__"; "__debug__";
    "__name__"; "__doc__"; "__package__"; "__loader__"; "__spec__";
    "Ellipsis"; "NotImplemented";
    "BaseException"; "BaseExceptionGroup"; "Exception"; "ExceptionGroup";
    "GeneratorExit"; "KeyboardInterrupt"; "SystemExit"; "ArithmeticError";
    "AssertionError"; "AttributeError"; "BufferError"; "EOFError";
    "ImportError"; "LookupError"; "MemoryError"; "NameError"; "OSError";
    "ReferenceError"; "RuntimeError"; "StopAsyncIteration"; "StopIteration";
    "SyntaxError"; "SystemError"; "TypeError"; "ValueError"; "Warning";
    "FloatingPointError"; "OverflowError"; "ZeroDivisionError";
    "BytesWarning"; "DeprecationWarning"; "EncodingWarning";
    "FutureWarning"; "ImportWarning"; "PendingDeprecationWarning";
    "ResourceWarning"; "RuntimeWarning"; "SyntaxWarning"; "UnicodeWarning";
    "UserWarning"; "BlockingIOError"; "ChildProcessError";
    "ConnectionError"; "BrokenPipeError"; "ConnectionAbortedError";
    "ConnectionRefusedError"; "ConnectionResetError"; "FileExistsError";
    "FileNotFoundError"; "InterruptedError"; "IsADirectoryError";
    "NotADirectoryError"; "PermissionError"; "ProcessLookupError";
    "TimeoutError"; "IndentationError"; "TabError"; "IndexError";
    "KeyError"; "ModuleNotFoundError"; "NotImplementedError";
    "RecursionError"; "UnboundLocalError"; "UnicodeError";
    "UnicodeDecodeError"; "UnicodeEncodeError"; "UnicodeTranslateError";
    "EnvironmentError"; "IOError" ].

Definition is_builtin (name : string) : bool :=
  bool_decide (name ∈ builtin_names).

(** Loading a name that the function does not bind itself: the module's
    globals, then the builtins, else [NameError]. *)
Definition load_global (globals : gmap string pyobj) (name : string)
  : outcome pyobj :=
  match globals !! name with
  | Some v => Return v
  | None => if is_builtin name then Return (PBuiltin name)
            else Raise (NameError name)
  end.

(** Loading a name inside a function body: the frame's locals first. *)
Definition load_name (locals globals : gmap string pyobj) (name : string)
  : outcome pyobj :=
  match locals !! name with
  | Some v => Return v
  | None => load_global globals name
  end.

(** Binding the positional arguments of a call to the parameters of a
    function without defaults: too few or too many raise [TypeError]. *)
Fixpoint bind_positional (func : string) (params : list string)
    (args : list pyobj) (given : nat) (locals : gmap string pyobj)
  : outcome (gmap string pyobj) :=
  match params, args with
  | [], [] => Return locals
  | p :: params', a :: args' =>
      bind_positional func params' args' given (<[p := a]> locals)
  | _ :: _, [] => Raise (TypeError_missing func params)
  | [], _ :: _ =>
      Raise (TypeError_too_many func (given - length args)%nat given)
  end.

Definition bind_args (func : string) (params : list string)
    (args : list pyobj) : outcome (gmap string pyobj) :=
  bind_positional func params args (length args) ∅.

(** A call of a function that declares no parameter: a keyword argument
    is reported before a surplus positional one. *)
Definition no_arguments (func : string) (args : list pyobj)
    (kwargs : list (string * pyobj)) : outcome unit :=
  match kwargs, args with
  | (keyword, _) :: _, _ => Raise (TypeError_unexpected_keyword func keyword)
  | [], _ :: _ => Raise (TypeError_too_many func 0 (length args))
  | [], [] => Return ()
  end.

(** Code that reads and writes a state [W] and may raise: the state at
    the point of the [raise] is kept. *)
Definition action (W A : Type) : Type := W → outcome A * W.

#[global] Instance action_ret {W} : MRet (action W) := λ A a w, (Return a, w).
#[global] Instance action_bind {W} : MBind (action W) := λ A B f m w,
  match m w with
  | (Return a, w') => f a w'
  | (Raise e, w') => (Raise e, w')
  end.

Definition throw {W A} (e : exn) : action W A := λ w, (Raise e, w).
Definition lift {W A} (o : outcome A) : action W A := λ w, (o, w).

End Py.

Import Py.

(** ** scd_merge.py *)

Module ScdMerge.

(** The names the module binds at top level: the docstring (its first
    sentence stands for the whole text) and the one function it defines,
    next to the names every module carries. *)
Definition module_globals : gmap string pyobj :=
  list_to_map
    [ ("__name__", PStr "scd_merge");
      ("__doc__", PStr "This function is a parameterized SCD merging function.");
      ("__package__", PStr "");
      ("__loader__", PObject "SourceFileLoader");
      ("__spec__", PObject "ModuleSpec");
      ("__file__", PStr "scd_merge.py");
      ("__cached__", PStr "scd_merge.pyc");
      ("__builtins__", PObject "builtins");
      ("scd_merge", PFunction "scd_merge") ].

(** [def scd_merge(df_source, df_target, table_params: dict)] *)
Definition scd_merge_params : list string :=
  [ "df_source"; "df_target"; "table_params" ].

(** The body, [return df_merged], run in the frame [locals]. *)
Definition scd_merge_body (locals : gmap string pyobj) : outcome pyobj :=
  load_name locals module_globals "df_merged".

(** A call [scd_merge(df_source, df_target, table_params)]. *)
Definition scd_merge (df_source df_target table_params : pyobj)
  : outcome pyobj :=
  scd_merge_body
    (<["table_params" := table_params]>
       (<["df_target" := df_target]>
          (<["df_source" := df_source]> ∅))).

(** A call with any number of positional arguments. *)
Definition scd_merge_call (args : list pyobj) : outcome pyobj :=
  locals ← bind_args "scd_merge" scd_merge_params args;
  scd_merge_body locals.

(** The table a call returned, if it returned one. *)
Definition merged_snapshot (result : outcome pyobj) : option DataFrame :=
  match result with
  | Return (PFrame df) => Some df
  | _ => None
  end.

End ScdMerge.

Import ScdMerge.

(** ** The worked examples of the module docstring

    Every SCD type that the docstring works out comes with the same
    source batch, a target table and the table that
    [scd_merge(df_source, df_target)] is documented to give.  Two more
    inputs follow them: a batch with a repeated key, and a mapping of
    policies. *)

Module Docstring.

Definition df_source : DataFrame :=
  mkDataFrame [ "customer"; "credit_score" ]
    [ [ Str "C00000001"; Int 730 ];
      [ Str "C00000002"; Int 480 ] ].

(** Type 0: retain original. *)
Definition type0_target : DataFrame :=
  mkDataFrame [ "customer"; "original_credit_score" ]
    [ [ Str "C00000001"; Int 630 ];
      [ Str "C00000002"; Int 520 ] ].

Definition type0_merged : DataFrame :=
  mkDataFrame [ "customer"; "original_credit_score" ]
    [ [ Str "C00000001"; Int 630 ];
      [ Str "C00000002"; Int 520 ] ].

(** Type 1: overwrite. *)
Definition type1_target : DataFrame :=
  mkDataFrame [ "customer"; "current_credit_score" ]
    [ [ Str "C00000001"; Int 630 ];
      [ Str "C00000002"; Int 520 ] ].

Definition type1_merged : DataFrame :=
  mkDataFrame [ "customer"; "current_credit_score" ]
    [ [ Str "C00000001"; Int 730 ];
      [ Str "C00000002"; Int 480 ] ].

(** Type 2: add new row (date of merge in the example: 2022-01-31). *)
Definition type2_target : DataFrame :=
  mkDataFrame
    [ "customer"; "effective_from"; "effective_to"; "is_current";
      "credit_score" ]
    [ [ Str "C00000001"; Str "2022-01-01"; Str "9999-12-31"; Int 1; Int 630 ];
      [ Str "C00000002"; Str "2022-01-01"; Str "9999-12-31"; Int 1; Int 520 ] ].

Definition type2_merged : DataFrame :=
  mkDataFrame
    [ "customer"; "effective_from"; "effective_to"; "is_current";
      "credit_score" ]
    [ [ Str "C00000001"; Str "2022-01-01"; Str "2022-01-30"; Int 0; Int 630 ];
      [ Str "C00000001"; Str "2022-01-31"; Str "9999-12-31"; Int 1; Int 730 ];
      [ Str "C00000002"; Str "2022-01-01"; Str "9999-12-31"; Int 0; Int 520 ];
      [ Str "C00000002"; Str "2022-01-01"; Str "9999-12-31"; Int 1; Int 480 ] ].

(** Type 3: add new attribute. *)
Definition type3_target : DataFrame :=
  mkDataFrame [ "customer"; "credit_score"; "credit_score_alternate" ]
    [ [ Str "C00000001"; Int 630; Null ];
      [ Str "C00000002"; Int 520; Null ] ].

Definition type3_merged : DataFrame :=
  mkDataFrame [ "customer"; "credit_score"; "credit_score_alternate" ]
    [ [ Str "C00000001"; Int 730; Int 630 ];
      [ Str "C00000002"; Int 480; Int 520 ] ].

(** Type 6: add type 1 attributes to a type 2 dimension. *)
Definition type6_target : DataFrame :=
  mkDataFrame
    [ "customer"; "effective_from"; "effective_to"; "is_current";
      "credit_score_current"; "credit_score_historical" ]
    [ [ Str "C00000001"; Str "2022-01-01"; Str "9999-12-31"; Int 1;
        Int 630; Int 630 ];
      [ Str "C00000002"; Str "2022-01-01"; Str "9999-12-31"; Int 1;
        Int 520; Int 520 ] ].

Definition type6_merged : DataFrame :=
  mkDataFrame
    [ "customer"; "effective_from"; "effective_to"; "is_current";
      "credit_score_current"; "credit_score_historical" ]
    [ [ Str "C00000001"; Str "2022-01-01"; Str "2022-01-30"; Int 0;
        Int 730; Int 630 ];
      [ Str "C00000001"; Str "2022-01-31"; Str "9999-12-31"; Int 1;
        Int 730; Int 730 ];
      [ Str "C00000002"; Str "2022-01-01"; Str "9999-12-31"; Int 0;
        Int 480; Int 520 ];
      [ Str "C00000002"; Str "2022-01-01"; Str "9999-12-31"; Int 1;
        Int 480; Int 480 ] ].

(** The expiration date of a row that is still current. *)
Definition max_sentinel : cell := Str "9999-12-31".

(** A batch that names the first customer twice. *)
Definition duplicate_source : DataFrame :=
  mkDataFrame [ "customer"; "credit_score" ]
    [ [ Str "C00000001"; Int 730 ];
      [ Str "C00000001"; Int 740 ] ].

(** A mapping that declares the SCD type of [credit_score]. *)
Definition policy (scd_type : Z) : pyobj :=
  PDict [ ("credit_score", PInt scd_type) ].

End Docstring.

(** ** Reading tables, and the properties a merged table is checked for *)

Module Table.

Fixpoint index_of (name : string) (cols : list string) : option nat :=
  match cols with
  | [] => None
  | c :: cols' =>
      if decide (c = name) then Some 0%nat else S <$> index_of name cols'
  end.

(** The cell of [row] under the column [col] of [df]. *)
Definition cell_of (df : DataFrame) (row : list cell) (col : string)
  : option cell :=
  i ← index_of col (columns df); row !! i.

(** The durable keys of the rows, in row order. *)
Definition key_column (df : DataFrame) (key : string) : list cell :=
  omap (λ r, cell_of df r key) (rows df).

Definition rows_of (df : DataFrame) (key : string) (k : cell)
  : list (list cell) :=
  filter (λ r, cell_of df r key = Some k) (rows df).

Definition present (df : DataFrame) (key : string) (k : cell) : bool :=
  bool_decide (k ∈ key_column df key).

(** The value of [col] on the first row of the durable key [k]. *)
Definition value_of (df : DataFrame) (key : string) (k : cell) (col : string)
  : option cell :=
  r ← head (rows_of df key k); cell_of df r col.

(** The rows of the durable key [k] whose current-row indicator is 1. *)
Definition current_rows (df : DataFrame) (key flag : string) (k : cell)
  : list (list cell) :=
  filter (λ r, cell_of df r flag = Some (Int 1)) (rows_of df key k).

(** More than one row for some durable key. *)
Definition has_duplicate_key (key : string) (df : DataFrame) : bool :=
  bool_decide (¬ NoDup (key_column df key)).

(** Type 0: a key of the source that the target knows keeps the target's
    value, and does not take a source value that differs from it. *)
Definition type0_retained (key src_col col : string)
    (source target out : DataFrame) : bool :=
  forallb (λ k,
      if present target key k then
        bool_decide (value_of out key k col = value_of target key k col)
        && (bool_decide (value_of source key k src_col
                         = value_of target key k col)
            || bool_decide (value_of out key k col
                            ≠ value_of source key k src_col))
      else true)
    (key_column source key).

(** Type 1: a key of the source takes the source's value, any other key
    of the target keeps its value. *)
Definition type1_overwritten (key src_col col : string)
    (source target out : DataFrame) : bool :=
  forallb (λ k,
      bool_decide (value_of out key k col = value_of source key k src_col))
    (key_column source key)
  && forallb (λ k,
      present source key k
      || bool_decide (value_of out key k col = value_of target key k col))
    (key_column target key).

(** Type 3, freeze after the first change: on a changed key the primary
    column takes the source's value and the alternate column takes the
    previous primary value when it was null, and stays as it was
    otherwise. *)
Definition type3_shifted (key col alt : string)
    (source target out : DataFrame) : bool :=
  forallb (λ k,
      if present target key k
         && bool_decide (value_of source key k col ≠ value_of target key k col)
      then
        bool_decide (value_of out key k col = value_of source key k col)
        && bool_decide (value_of out key k alt
                        = match value_of target key k alt with
                          | Some Null => value_of target key k col
                          | other => other
                          end)
      else true)
    (key_column source key).

(** Type 2: every durable key has exactly one current row, and that row
    expires at the sentinel. *)
Definition type2_single_current (key flag to : string) (sentinel : cell)
    (out : DataFrame) : bool :=
  forallb (λ k,
      match current_rows out key flag k with
      | [c] => bool_decide (cell_of out c to = Some sentinel)
      | _ => false
      end)
    (key_column out key).

(** Half-open intervals [[from, to)] that follow each other without gap
    or overlap: each version expires when the next one starts. *)
Fixpoint adjacent (df : DataFrame) (from to : string)
    (versions : list (list cell)) : bool :=
  match versions with
  | r1 :: (r2 :: _) as rest =>
      bool_decide (cell_of df r1 to = cell_of df r2 from)
      && adjacent df from to rest
  | _ => true
  end.

Definition type2_contiguous (key from to : string) (out : DataFrame) : bool :=
  forallb (λ k, adjacent out from to (rows_of out key k))
    (key_column out key).

(** Type 6: on every row the shadow column holds the value it has on the
    single current row of the row's durable key. *)
Definition type6_shadow_consistent (key flag cur : string) (out : DataFrame)
  : bool :=
  forallb (λ r,
      match cell_of out r key with
      | Some k =>
          match current_rows out key flag k with
          | [c] => bool_decide (cell_of out r cur = cell_of out c cur)
          | _ => false
          end
      | None => false
      end)
    (rows out).

(** Type 6: a version that was already in the target keeps its historical
    value. *)
Definition type6_history_retained (key from hist : string)
    (target out : DataFrame) : bool :=
  forallb (λ r,
      bool_decide
        (Exists (λ r', cell_of out r' key = cell_of target r key
                       ∧ cell_of out r' from = cell_of target r from
                       ∧ cell_of out r' hist = cell_of target r hist)
           (rows out)))
    (rows target).

End Table.

Import Docstring Table.

(** ** add_attributes.py *)

Module AddAttributes.

(** *** Attribute dictionaries

    A dictionary as Python keeps it: an assignment to a name that is
    present replaces the value where it stands, a new name goes to the
    end. *)
Record pydict (A : Type) : Type := Dict { dict_items : list (string * A) }.
Arguments Dict {A} _.
Arguments dict_items {A} _.

Fixpoint items_get {A} (name : string) (items : list (string * A))
  : option A :=
  match items with
  | [] => None
  | (k, x) :: items' =>
      if decide (k = name) then Some x else items_get name items'
  end.

Fixpoint items_set {A} (name : string) (v : A) (items : list (string * A))
  : list (string * A) :=
  match items with
  | [] => [ (name, v) ]
  | (k, x) :: items' =>
      if decide (k = name) then (k, v) :: items'
      else (k, x) :: items_set name v items'
  end.

#[global] Instance pydict_empty {A} : Empty (pydict A) := Dict [].
#[global] Instance pydict_lookup {A} : Lookup string A (pydict A) :=
  λ name d, items_get name (dict_items d).
#[global] Instance pydict_insert {A} : Insert string A (pydict A) :=
  λ name v d, Dict (items_set name v (dict_items d)).
#[global] Instance pydict_dom {A} : Dom (pydict A) (gset string) :=
  λ d, list_to_set (dict_items d).*1.

(** *** Which objects take a new attribute

    The object handed to [add_attr] as [cls]: a class made by a [class]
    statement (of metaclass [type]), a function made by [def], a builtin
    type such as [int] or [str], or an instance without [__dict__] such
    as [object()] or [None]. *)
Inductive kind : Type :=
  | HeapClass
  | FunctionObject
  | ImmutableType
  | PlainInstance.

(** The names under which a class does not take a function: those that
    want a value of another type, and those that are read-only. *)
Definition class_typed_names : list string :=
  [ "__bases__"; "__class__"; "__name__"; "__qualname__" ].

Definition class_readonly_names : list string :=
  [ "__base__"; "__basicsize__"; "__dict__"; "__dictoffset__"; "__flags__";
    "__itemsize__"; "__mro__"; "__text_signature__"; "__weakrefoffset__" ].

(** The same for a function object. *)
Definition function_typed_names : list string :=
  [ "__annotations__"; "__class__"; "__code__"; "__defaults__"; "__dict__";
    "__kwdefaults__"; "__name__"; "__qualname__" ].

Definition function_readonly_names : list string :=
  [ "__builtins__"; "__closure__"; "__globals__" ].

(** [refuses k name]: what [setattr(obj, name, f)] raises for an object
    of kind [k] and a function [f], if it raises (as CPython 3.11 has
    it; every other name is stored). *)
Definition refuses (k : kind) (name : string) : option exn :=
  match k with
  | HeapClass =>
      if decide (name ∈ class_typed_names) then Some (TypeError_setattr name)
      else if decide (name ∈ class_readonly_names)
           then Some (AttributeError name)
           else None
  | FunctionObject =>
      if decide (name ∈ function_typed_names)
      then Some (TypeError_setattr name)
      else if decide (name ∈ function_readonly_names)
           then Some (AttributeError name)
           else None
  | ImmutableType => Some (TypeError_setattr name)
  | PlainInstance =>
      if decide (name = "__class__") then Some (TypeError_setattr name)
      else Some (AttributeError name)
  end.

(** *** The decorator and the functions it is applied to

    [World] is whatever state a decorated function reads and writes;
    [load], [get_attr], [call] and [operator] stand for the object
    protocol of the interpreter: the value of a global name, attribute
    access, a call, and an operator applied to its operands. *)
Section Decorator.

Variable World : Type.

(** A function object: [__name__], [__doc__], [__wrapped__], and what a
    call with positional and keyword arguments does. *)
Inductive pyfunc : Type := mkFunc {
  fn_name : string;
  fn_doc : option string;
  fn_wrapped : option pyfunc;
  fn_call : list pyobj → list (string * pyobj) → action World pyobj
}.

Inductive attr : Type :=
  | AFunc (f : pyfunc)
  | AObj (o : pyobj).

(** An object of kind [k], with the attributes stored on it by name: the
    entries of its [__dict__] (and, for a function object, its slots
    [__doc__] and [__module__]). *)
Record pyclass (k : kind) : Type := mkClass {
  cls_name : string;
  cls_dict : pydict attr
}.
Arguments mkClass {k} _ _.
Arguments cls_name {k} _.
Arguments cls_dict {k} _.

(** [setattr(cls, name, v)] for a function [v]: the object with the
    attribute stored, or the exception of an object that refuses it. *)
Definition setattr {k} (cls : pyclass k) (name : string) (v : attr)
  : outcome (pyclass k) :=
  match refuses k name with
  | Some e => Raise e
  | None => Return (mkClass (cls_name cls) (<[name := v]> (cls_dict cls)))
  end.

Definition getattr {k} (cls : pyclass k) (name : string) : outcome attr :=
  match cls_dict cls !! name with
  | Some v => Return v
  | None => Raise (AttributeError name)
  end.

(** [functools.wraps(wrapped)] applied to [wrapper]: the wrapper takes
    over the name and the docstring and remembers what it wraps. *)
Definition wraps (wrapped wrapper : pyfunc) : pyfunc :=
  mkFunc (fn_name wrapped) (fn_doc wrapped) (Some wrapped) (fn_call wrapper).

(** The body of [_wrapper], which takes any positional and keyword
    arguments and hands them to [func]. *)
Definition _wrapper (func : pyfunc) (args : list pyobj)
    (kwargs : list (string * pyobj)) : action World pyobj :=
  f ← fn_call func args kwargs;
  mret f.

(** [decorator(func)], inside [add_attr(cls)]: the object [cls] after the
    [setattr], and the value returned or the exception of the
    [setattr]. *)
Definition decorator {k} (cls : pyclass k) (func : pyfunc)
  : pyclass k * outcome pyfunc :=
  let wrapper := wraps func (mkFunc "_wrapper" None None (_wrapper func)) in
  match setattr cls (fn_name func) (AFunc wrapper) with
  | Return cls => (cls, Return func)
  | Raise e => (cls, Raise e)
  end.

Definition add_attr {k} (cls : pyclass k) : pyfunc → pyclass k * outcome pyfunc :=
  decorator cls.

Variable load : string → action World pyobj.
Variable get_attr : pyobj → string → action World pyobj.
Variable call : pyobj → list pyobj → action World pyobj.
Variable operator : string → list pyobj → action World pyobj.

(** [return self.withColumn("col3", lit(3))] *)
Definition add_column3 (self : pyobj) : pyfunc :=
  mkFunc "add_column3" None None (λ args kwargs,
    lift (no_arguments "add_column3" args kwargs);;
    withColumn ← get_attr self "withColumn";
    lit ← load "lit";
    c ← call lit [PInt 3];
    call withColumn [PStr "col3"; c]).

(** [return self.withColumn("col4", lit(4))] *)
Definition add_column4 (self : pyobj) : pyfunc :=
  mkFunc "add_column4" None None (λ args kwargs,
    lift (no_arguments "add_column4" args kwargs);;
    withColumn ← get_attr self "withColumn";
    lit ← load "lit";
    c ← call lit [PInt 4];
    call withColumn [PStr "col4"; c]).

(** [custom(self)]: both inner functions are attached to the function
    object [custom] itself, which is returned; an exception of a
    decoration ends the call. *)
Definition custom (self : pyobj) (custom_obj : pyclass FunctionObject)
  : pyclass FunctionObject * outcome unit :=
  let '(custom_obj, decorated3) := add_attr custom_obj (add_column3 self) in
  match decorated3 with
  | Raise e => (custom_obj, Raise e)
  | Return _ =>
      let '(custom_obj, decorated4) :=
        add_attr custom_obj (add_column4 self) in
      match decorated4 with
      | Raise e => (custom_obj, Raise e)
      | Return _ => (custom_obj, Return ())
      end
  end.

(** The two chained [where] filters of [drop_fusion_gdpp_events]. *)
Definition drop_fusion_gdpp_events (self : pyobj) : pyfunc :=
  mkFunc "drop_fusion_gdpp_events" None None (λ args kwargs,
    lift (no_arguments "drop_fusion_gdpp_events" args kwargs);;
    where1 ← get_attr self "where";
    col1 ← load "col";
    t1 ← call col1 [PStr "test1"];
    e1 ← operator "==" [t1; PStr "ABC"];
    col2 ← load "col";
    t2 ← call col2 [PStr "test2"];
    e2 ← operator "==" [t2; PStr "XYZ"];
    both ← operator "&" [e1; e2];
    n1 ← operator "~" [both];
    filtered ← call where1 [n1];
    where2 ← get_attr filtered "where";
    col3 ← load "col";
    t3 ← call col3 [PStr "test1"];
    isin ← get_attr t3 "isin";
    member ← call isin [PList [PStr "AAA"; PStr "BBB"]];
    n2 ← operator "~" [member];
    call where2 [n2]).

Definition dataframe_extension (self : pyobj)
    (extension_obj : pyclass FunctionObject)
  : pyclass FunctionObject * outcome unit :=
  let '(extension_obj, decorated) :=
    add_attr extension_obj (drop_fusion_gdpp_events self) in
  match decorated with
  | Raise e => (extension_obj, Raise e)
  | Return _ => (extension_obj, Return ())
  end.

(** [obj.name()]: the attribute is looked up in the dictionary of the
    object and called without arguments. *)
Definition call_attribute {k} (obj : pyclass k) (name : string)
  : action World pyobj :=
  match getattr obj name with
  | Return (AFunc f) => fn_call f [] []
  | Return (AObj o) => call o []
  | Raise e => throw e
  end.

(** [self.custom.add_column3()], the statement under "use it" for a
    table [self]: reading the property runs [custom(self)], and
    [add_column3] is looked up on the function object it returns. *)
Definition use_it (self : pyobj) (custom_obj : pyclass FunctionObject)
  : action World pyobj :=
  match custom self custom_obj with
  | (custom_obj, Return _) => call_attribute custom_obj "add_column3"
  | (_, Raise e) => throw e
  end.

(** [self.dataframe_extension.drop_fusion_gdpp_events()], likewise. *)
Definition use_extension (self : pyobj)
    (extension_obj : pyclass FunctionObject) : action World pyobj :=
  match dataframe_extension self extension_obj with
  | (extension_obj, Return _) =>
      call_attribute extension_obj "drop_fusion_gdpp_events"
  | (_, Raise e) => throw e
  end.

End Decorator.

Arguments mkFunc {World} _ _ _ _.
Arguments fn_name {World} _.
Arguments fn_doc {World} _.
Arguments fn_wrapped {World} _.
Arguments fn_call {World} _ _ _ _.
Arguments AFunc {World} _.
Arguments AObj {World} _.
Arguments mkClass {World k} _ _.
Arguments cls_name {World k} _.
Arguments cls_dict {World k} _.
Arguments setattr {World k} _ _ _.
Arguments getattr {World k} _ _.
Arguments wraps {World} _ _.
Arguments _wrapper {World} _ _ _ _.
Arguments decorator {World k} _ _.
Arguments add_attr {World k} _ _.
Arguments add_column3 {World} _ _ _ _.
Arguments add_column4 {World} _ _ _ _.
Arguments custom {World} _ _ _ _ _.
Arguments drop_fusion_gdpp_events {World} _ _ _ _ _.
Arguments dataframe_extension {World} _ _ _ _ _ _.
Arguments call_attribute {World} _ {k} _ _.
Arguments use_it {World} _ _ _ _ _.
Arguments use_extension {World} _ _ _ _ _ _.

(** Sample objects, over a state that counts calls: a class as
    [class Sample: pass] makes it, the function object [custom] before
    anything is attached, the builtin type [int], two functions named
    [bump], one named [peek] and one named [__name__], and an interpreter
    in which no global is
    bound, every attribute exists and every call and operator gives
    [None]. *)
Definition sample_class : pyclass nat HeapClass :=
  mkClass "Sample"
    (Dict [ ("__module__", AObj (PStr "__main__"));
            ("__dict__", AObj (PObject "attribute"));
            ("__weakref__", AObj (PObject "attribute"));
            ("__doc__", AObj PNone) ]).

Definition custom_function : pyclass nat FunctionObject := mkClass "custom" ∅.

Definition int_class : pyclass nat ImmutableType := mkClass "int" ∅.

Definition bump : pyfunc nat :=
  mkFunc "bump" (Some "count one more call") None
    (λ _ _ n, (Return (PInt (Z.of_nat n)), S n)).

Definition bump_reset : pyfunc nat :=
  mkFunc "bump" None None (λ _ _ _, (Return PNone, 0%nat)).

Definition peek : pyfunc nat :=
  mkFunc "peek" None None (λ _ _ n, (Return (PInt (Z.of_nat n)), n)).

Definition dunder_name : pyfunc nat :=
  mkFunc "__name__" None None (λ _ _ n, (Return PNone, n)).

Definition no_global : string → action nat pyobj :=
  λ name, throw (NameError name).

Definition any_attribute : pyobj → string → action nat pyobj :=
  λ _ name, mret (PObject name).

Definition any_call : pyobj → list pyobj → action nat pyobj :=
  λ _ _, mret PNone.

Definition any_operator : string → list pyobj → action nat pyobj :=
  λ _ _, mret PNone.

(** *** The module-level statements, run by an import *)

(** The modules of the standard library that the file imports from. *)
Definition stdlib : gmap string (gmap string pyobj) :=
  {[ "functools" :=
       list_to_map
         [ ("wraps", PFunction "functools.wraps");
           ("partial", PClass "functools.partial");
           ("reduce", PBuiltin "functools.reduce") ] ]}.

(** The state of the import: the module's global names, and the
    attributes it has set on classes and functions (owner, name). *)
Record mstate : Type := mkState {
  globals : gmap string pyobj;
  attrs : gmap (string * string) pyobj
}.

Definition initial_state : mstate :=
  mkState
    (list_to_map
       [ ("__name__", PStr "add_attributes");
         ("__doc__", PNone);
         ("__package__", PStr "");
         ("__loader__", PObject "SourceFileLoader");
         ("__spec__", PObject "ModuleSpec");
         ("__file__", PStr "add_attributes.py");
         ("__cached__", PStr "add_attributes.pyc");
         ("__builtins__", PObject "builtins") ])
    ∅.

(** The packages on the way to a module, outermost first:
    [pyspark], [pyspark.sql], [pyspark.sql.dataframe]. *)
Fixpoint dotted_prefixes (seen rest : string) : list string :=
  match rest with
  | EmptyString => [ seen ]
  | String c rest' =>
      if decide (String c EmptyString = ".") then
        seen :: dotted_prefixes (seen ++ ".") rest'
      else dotted_prefixes (seen ++ String c EmptyString) rest'
  end.

(** The module that an import of [module] reports as not found: the
    outermost package on the way to it that is not installed. *)
Definition first_missing (site : gmap string (gmap string pyobj))
    (module : string) : string :=
  default module
    (head (filter (λ p, stdlib !! p = None ∧ site !! p = None)
             (dotted_prefixes "" module))).

(** [from module import name], over the installed packages [site]. *)
Definition import_from (site : gmap string (gmap string pyobj))
    (module name : string) : action mstate pyobj := λ st,
  match stdlib !! module with
  | Some ns =>
      match ns !! name with
      | Some v => (Return v, st)
      | None => (Raise (ImportError module name), st)
      end
  | None =>
      match site !! module with
      | Some ns =>
          match ns !! name with
          | Some v => (Return v, st)
          | None => (Raise (ImportError module name), st)
          end
      | None => (Raise (ModuleNotFoundError (first_missing site module)), st)
      end
  end.

Definition store_name (name : string) (v : pyobj) : action mstate unit :=
  λ st, (Return (), mkState (<[name := v]> (globals st)) (attrs st)).

Definition load (name : string) : action mstate pyobj :=
  λ st, (load_global (globals st) name, st).

(** [owner.name = v]: classes and functions take new attributes. *)
Definition store_attr (owner : pyobj) (name : string) (v : pyobj)
  : action mstate unit := λ st,
  match owner with
  | PClass q | PFunction q =>
      (Return (), mkState (globals st) (<[(q, name) := v]> (attrs st)))
  | _ => (Raise (AttributeError name), st)
  end.

Section Importing.

Variable get_attr : pyobj → string → action mstate pyobj.
Variable call : pyobj → list pyobj → action mstate pyobj.

(** A call: the builtin [property] builds a property object from its
    getter; every other call is left to the interpreter. *)
Definition call_object (f : pyobj) (args : list pyobj)
  : action mstate pyobj :=
  match f, args with
  | PBuiltin name, [fget] =>
      if decide (name = "property") then mret (PProperty fget)
      else call f args
  | _, _ => call f args
  end.

(** The statements of the file, top to bottom. *)
Definition module_body (site : gmap string (gmap string pyobj))
  : action mstate unit :=
  (* from pyspark.sql.dataframe import DataFrame *)
  v ← import_from site "pyspark.sql.dataframe" "DataFrame";
  store_name "DataFrame" v;;
  (* from functools import wraps *)
  v ← import_from site "functools" "wraps";
  store_name "wraps" v;;
  (* def add_attr(cls): ... *)
  store_name "add_attr" (PFunction "add_attr");;
  (* def custom(self): ... *)
  store_name "custom" (PFunction "custom");;
  (* DataFrame.custom = property(custom) *)
  p ← load "property";
  c ← load "custom";
  v ← call_object p [c];
  d ← load "DataFrame";
  store_attr d "custom" v;;
  (* df.custom.add_column3() *)
  df ← load "df";
  c ← get_attr df "custom";
  f ← get_attr c "add_column3";
  call_object f [];;
  (* def add_attr(cls): ... *)
  store_name "add_attr" (PFunction "add_attr");;
  (* def dataframe_extension(self): ... *)
  store_name "dataframe_extension" (PFunction "dataframe_extension");;
  (* DataFrame.dataframe_extension = property(dataframe_extension) *)
  p ← load "property";
  c ← load "dataframe_extension";
  v ← call_object p [c];
  d ← load "DataFrame";
  store_attr d "dataframe_extension" v.

Definition import_module (site : gmap string (gmap string pyobj))
  : outcome unit * mstate :=
  module_body site initial_state.

End Importing.

(** [pyspark] is installed: its module [pyspark.sql.dataframe] exports
    the class [DataFrame]. *)
Definition pyspark_importable (site : gmap string (gmap string pyobj))
  : bool :=
  match site !! "pyspark.sql.dataframe" with
  | Some ns =>
      match ns !! "DataFrame" with
      | Some (PClass _) => true
      | _ => false
      end
  | None => false
  end.

(** An installation with [pyspark]. *)
Definition site_with_pyspark : gmap string (gmap string pyobj) :=
  {[ "pyspark.sql.dataframe" :=
       {[ "DataFrame" := PClass "pyspark.sql.dataframe.DataFrame" ]} ]}.


End AddAttributes.

Import AddAttributes.

(** * Properties *)

(** ** Name resolution and the state monad *)

Lemma load_name_unbound locals globals name :
  locals !! name = None →
  globals !! name = None →
  is_builtin name = false →
  load_name locals globals name = Raise (NameError name).
Proof.
  intros Hl Hg Hb. unfold load_name, load_global. by rewrite Hl, Hg, Hb.
Qed.

Lemma load_name_local locals globals name v :
  locals !! name = Some v → load_name locals globals name = Return v.
Proof. intros Hl. unfold load_name. by rewrite Hl. Qed.

Section Action.

Context {W A B : Type}.
Implicit Types (m : action W A) (k : A → action W B) (w : W).

Lemma bind_returned m k w a w' :
  m w = (Return a, w') → (m ≫= k) w = k a w'.
Proof. intros Hm. unfold mbind, action_bind. by rewrite Hm. Qed.

Lemma bind_raised m k w e w' :
  m w = (Raise e, w') → (m ≫= k) w = (Raise e, w').
Proof. intros Hm. unfold mbind, action_bind. by rewrite Hm. Qed.

(** Returning what was just computed adds nothing. *)
Lemma bind_mret m w : (m ≫= mret) w = m w.
Proof.
  unfold mbind, action_bind, mret, action_ret.
  by destruct (m w) as [[a|e] w'].
Qed.

End Action.

(** ** scd_merge *)

Lemma scd_merge_call_3 S T P :
  scd_merge_call [S; T; P] = scd_merge S T P.
Proof. reflexivity. Qed.

Lemma df_merged_not_global : module_globals !! "df_merged" = None.
Proof. vm_compute. reflexivity. Qed.

Lemma df_merged_not_builtin : is_builtin "df_merged" = false.
Proof. vm_compute. reflexivity. Qed.

(** The frame of a call binds the three parameters and nothing else, so
    the name the body returns is resolved in no scope. *)
Lemma scd_merge_unbound S T P :
  scd_merge S T P = Raise (NameError "df_merged").
Proof.
  unfold scd_merge, scd_merge_body.
  apply load_name_unbound;
    [ | apply df_merged_not_global | apply df_merged_not_builtin ].
  by rewrite !lookup_insert_ne, lookup_empty.
Qed.

Lemma scd_merge_no_snapshot S T P :
  merged_snapshot (scd_merge S T P) = None.
Proof. by rewrite scd_merge_unbound. Qed.

(** The docstring calls [scd_merge(df_source, df_target)]: with the
    signature as it is, that call stops at the missing third argument. *)
Lemma scd_merge_call_2 S T :
  scd_merge_call [S; T]
  = Raise (TypeError_missing "scd_merge" [ "table_params" ]).
Proof. reflexivity. Qed.

Lemma scd_merge_call_4 S T P t :
  scd_merge_call [S; T; P; t] = Raise (TypeError_too_many "scd_merge" 3 4).
Proof. reflexivity. Qed.

(** The mapping of policies is never read. *)
Lemma scd_merge_ignores_table_params S T P P' :
  scd_merge S T P = scd_merge S T P'.
Proof. by rewrite !scd_merge_unbound. Qed.

(** ** What the docstring documents *)

Lemma docstring_type0_retained :
  type0_retained "customer" "credit_score" "original_credit_score"
    df_source type0_target type0_merged = true.
Proof. vm_compute. reflexivity. Qed.

Lemma docstring_type1_overwritten :
  type1_overwritten "customer" "credit_score" "current_credit_score"
    df_source type1_target type1_merged = true.
Proof. vm_compute. reflexivity. Qed.

Lemma docstring_type2_single_current :
  type2_single_current "customer" "is_current" "effective_to" max_sentinel
    type2_merged = true.
Proof. vm_compute. reflexivity. Qed.

(** The documented type 2 table closes a version the day before the next
    one starts (and, for the second customer, not at all): read as
    half-open intervals its versions do not follow each other. *)
Lemma docstring_type2_not_half_open :
  type2_contiguous "customer" "effective_from" "effective_to" type2_merged
  = false.
Proof. vm_compute. reflexivity. Qed.

Lemma docstring_type3_shifted :
  type3_shifted "customer" "credit_score" "credit_score_alternate"
    df_source type3_target type3_merged = true.
Proof. vm_compute. reflexivity. Qed.

Lemma docstring_type6_shadow :
  type6_shadow_consistent "customer" "is_current" "credit_score_current"
    type6_merged = true.
Proof. vm_compute. reflexivity. Qed.

Lemma docstring_type6_history :
  type6_history_retained "customer" "effective_from"
    "credit_score_historical" type6_target type6_merged = true.
Proof. vm_compute. reflexivity. Qed.

Lemma duplicate_source_has_duplicate :
  has_duplicate_key "customer" duplicate_source = true.
Proof. vm_compute. reflexivity. Qed.

Lemma df_source_no_duplicate :
  has_duplicate_key "customer" df_source = false.
Proof. vm_compute. reflexivity. Qed.

(** ** The claims about scd_merge *)

(** C1: a call [scd_merge(df_source, df_target, table_params)] is claimed
    to complete and return a table.  On the code every such call raises
    [NameError] for [df_merged], whatever the three arguments are, and so
    returns nothing. *)
Theorem scd_merge_raises_NameError (S T P : pyobj) :
  scd_merge S T P = Raise (NameError "df_merged")
  ∧ returns (scd_merge S T P) = false.
Proof. by rewrite scd_merge_unbound. Qed.


(** C4: on the type 0 example of the docstring the call raises
    [NameError] and returns no snapshot, where the claim expects the
    target's value to be retained, as in the documented table. *)
Theorem type0_example_raises (table_params : pyobj) :
  scd_merge (PFrame df_source) (PFrame type0_target) table_params
  = Raise (NameError "df_merged")
  ∧ merged_snapshot
      (scd_merge (PFrame df_source) (PFrame type0_target) table_params)
    = None
  ∧ type0_retained "customer" "credit_score" "original_credit_score"
      df_source type0_target type0_merged = true.
Proof.
  rewrite scd_merge_unbound. split_and!; [done | done |].
  apply docstring_type0_retained.
Qed.

(** C5: on the type 1 example of the docstring the call raises
    [NameError] and returns no snapshot, where the claim expects the
    source's value in [current_credit_score], as in the documented
    table. *)
Theorem type1_example_raises (table_params : pyobj) :
  scd_merge (PFrame df_source) (PFrame type1_target) table_params
  = Raise (NameError "df_merged")
  ∧ merged_snapshot
      (scd_merge (PFrame df_source) (PFrame type1_target) table_params)
    = None
  ∧ type1_overwritten "customer" "credit_score" "current_credit_score"
      df_source type1_target type1_merged = true.
Proof.
  rewrite scd_merge_unbound. split_and!; [done | done |].
  apply docstring_type1_overwritten.
Qed.

(** The class the claim names would be seen if it were raised. *)
Lemma raises_class_DuplicateSourceKey :
  raises_class (Raise (UserError "DuplicateSourceKey") : outcome pyobj)
    "DuplicateSourceKey" = true.
Proof. reflexivity. Qed.

(** C6, as stated, fails: a batch with two rows for one durable key does
    not make the call raise [DuplicateSourceKey]. *)
Lemma duplicate_key_not_reported :
  ¬ (raises_class
       (scd_merge (PFrame duplicate_source) (PFrame type1_target)
          (policy 1))
       "DuplicateSourceKey" = true
     ↔ has_duplicate_key "customer" duplicate_source = true).
Proof.
  rewrite scd_merge_unbound. intros [_ H].
  specialize (H duplicate_source_has_duplicate). vm_compute in H.
  discriminate.
Qed.

(** C6, amended: no call of [scd_merge] raises [DuplicateSourceKey],
    whether the batch has one row per durable key or more. *)
Theorem DuplicateSourceKey_never_raised (S T P : pyobj) :
  raises_class (scd_merge S T P) "DuplicateSourceKey" = false.
Proof. by rewrite scd_merge_unbound. Qed.

(** C7: on the type 3 example of the docstring the call raises
    [NameError] and returns no snapshot, where the claim expects the
    primary column overwritten and the null alternate column set to the
    previous value, as in the documented table; whatever [table_params]
    holds, the outcome is the same. *)
Theorem type3_example_raises (table_params : pyobj) :
  scd_merge (PFrame df_source) (PFrame type3_target) table_params
  = Raise (NameError "df_merged")
  ∧ merged_snapshot
      (scd_merge (PFrame df_source) (PFrame type3_target) table_params)
    = None
  ∧ type3_shifted "customer" "credit_score" "credit_score_alternate"
      df_source type3_target type3_merged = true.
Proof.
  rewrite scd_merge_unbound. split_and!; [done | done |].
  apply docstring_type3_shifted.
Qed.


(** ** Attribute dictionaries *)

Section DictFacts.

Context {A : Type}.
Implicit Types (d : pydict A) (items : list (string * A)) (v : A).

Lemma items_get_set_eq items name v :
  items_get name (items_set name v items) = Some v.
Proof.
  induction items as [|[k x] items IH]; simpl.
  - by rewrite decide_True.
  - destruct (decide (k = name)) as [->|Hne]; simpl.
    + by rewrite decide_True.
    + by rewrite decide_False.
Qed.

Lemma items_get_set_ne items name name' v :
  name ≠ name' →
  items_get name' (items_set name v items) = items_get name' items.
Proof.
  intros Hne. induction items as [|[k x] items IH]; simpl.
  - by rewrite decide_False.
  - destruct (decide (k = name)) as [->|Hk]; simpl.
    + by rewrite !decide_False.
    + by rewrite IH.
Qed.

Lemma items_set_set_eq items name v v' :
  items_set name v (items_set name v' items) = items_set name v items.
Proof.
  induction items as [|[k x] items IH]; simpl.
  - by rewrite decide_True.
  - destruct (decide (k = name)) as [->|Hk]; simpl.
    + by rewrite decide_True.
    + by rewrite decide_False, IH.
Qed.

(** A name that is present keeps its place, so that replacing its value
    and storing another name can be done in either order. *)
Lemma items_set_present_commute items name name' v v' :
  name ≠ name' → is_Some (items_get name items) →
  items_set name v (items_set name' v' items)
  = items_set name' v' (items_set name v items).
Proof.
  intros Hne. induction items as [|[k x] items IH]; simpl.
  - by intros [? ?].
  - intros Hpresent.
    destruct (decide (k = name)) as [->|Hk].
    + rewrite (decide_False (P := name = name')) by done. simpl.
      by rewrite decide_True, decide_False.
    + destruct (decide (k = name')) as [->|Hk']; simpl.
      * by rewrite decide_False, decide_True.
      * by rewrite !decide_False, IH.
Qed.

Lemma items_set_keys items name v :
  (list_to_set (items_set name v items).*1 : gset string)
  = {[ name ]} ∪ list_to_set items.*1.
Proof.
  induction items as [|[k x] items IH]; cbn [items_set].
  - done.
  - destruct (decide (k = name)) as [->|Hk];
      rewrite !fmap_cons, !list_to_set_cons; cbn [fst].
    + apply set_eq. intros y. rewrite !elem_of_union. tauto.
    + rewrite IH. apply set_eq. intros y. rewrite !elem_of_union. tauto.
Qed.

Lemma dict_lookup_insert_eq d name v : <[name := v]> d !! name = Some v.
Proof. apply items_get_set_eq. Qed.

Lemma dict_lookup_insert_ne d name name' v :
  name ≠ name' → <[name := v]> d !! name' = d !! name'.
Proof. apply items_get_set_ne. Qed.

Lemma dict_insert_insert_eq d name v v' :
  <[name := v]> (<[name := v']> d) = <[name := v]> d.
Proof.
  unfold insert, pydict_insert. simpl. by rewrite items_set_set_eq.
Qed.

Lemma dict_insert_present_commute d name name' v v' :
  name ≠ name' → is_Some (d !! name) →
  <[name := v]> (<[name' := v']> d) = <[name' := v']> (<[name := v]> d).
Proof.
  intros Hne Hpresent. unfold insert, pydict_insert. simpl.
  by rewrite items_set_present_commute.
Qed.

Lemma dict_dom_insert d name v :
  dom (<[name := v]> d) = {[ name ]} ∪ dom d.
Proof. apply items_set_keys. Qed.

End DictFacts.

(** ** add_attr *)

Section DecoratorFacts.

Context {World : Type} {k : kind}.
Implicit Types (cls : pyclass World k) (func : pyfunc World).

(** A call of [_wrapper] is a call of [func]: same value or exception,
    same state afterwards. *)
Lemma _wrapper_call func args kwargs (world : World) :
  _wrapper func args kwargs world = fn_call func args kwargs world.
Proof. unfold _wrapper. apply bind_mret. Qed.

(** [wraps] hands over the name and the docstring. *)
Lemma wraps_name func wrapper : fn_name (wraps func wrapper) = fn_name func.
Proof. reflexivity. Qed.

Lemma wraps_wrapped func wrapper :
  fn_wrapped (wraps func wrapper) = Some func.
Proof. reflexivity. Qed.

Lemma pyclass_eq cls cls' :
  cls_name cls = cls_name cls' → cls_dict cls = cls_dict cls' → cls = cls'.
Proof. destruct cls, cls'. simpl. by intros -> ->. Qed.

(** The object after the decoration, and what the decoration gives. *)
Lemma add_attr_object cls func :
  (add_attr cls func).1
  = match refuses k (fn_name func) with
    | Some _ => cls
    | None =>
        mkClass (cls_name cls)
          (<[fn_name func :=
               AFunc (wraps func
                        (mkFunc "_wrapper" None None (_wrapper func)))]>
             (cls_dict cls))
    end.
Proof.
  unfold add_attr, decorator, setattr.
  by destruct (refuses k (fn_name func)).
Qed.

Lemma add_attr_result cls func :
  (add_attr cls func).2
  = match refuses k (fn_name func) with
    | Some e => Raise e
    | None => Return func
    end.
Proof.
  unfold add_attr, decorator, setattr.
  by destruct (refuses k (fn_name func)).
Qed.

(** The attributes under other names are left as they were. *)
Lemma add_attr_other cls func name :
  name ≠ fn_name func →
  cls_dict (add_attr cls func).1 !! name = cls_dict cls !! name.
Proof.
  intros Hne. rewrite add_attr_object.
  destruct (refuses k (fn_name func)); [done |].
  simpl. by rewrite dict_lookup_insert_ne.
Qed.

Lemma add_attr_cls_name cls func :
  cls_name (add_attr cls func).1 = cls_name cls.
Proof.
  rewrite add_attr_object. by destruct (refuses k (fn_name func)).
Qed.

(** What [getattr] finds under the function's name after a decoration
    that the object accepted. *)
Lemma add_attr_getattr cls func :
  refuses k (fn_name func) = None →
  getattr (add_attr cls func).1 (fn_name func)
  = Return (AFunc (wraps func (mkFunc "_wrapper" None None (_wrapper func)))).
Proof.
  intros Hok. unfold getattr. rewrite add_attr_object, Hok. simpl.
  by rewrite dict_lookup_insert_eq.
Qed.

End DecoratorFacts.

(** A class takes a function under an ordinary name and refuses one under
    [__name__]; the function object [custom] takes the names that the file
    attaches to it. *)
Lemma refuses_examples :
  refuses HeapClass "bump" = None
  ∧ refuses HeapClass "__name__" = Some (TypeError_setattr "__name__")
  ∧ refuses FunctionObject "add_column3" = None
  ∧ refuses FunctionObject "add_column4" = None
  ∧ refuses FunctionObject "drop_fusion_gdpp_events" = None.
Proof. vm_compute. done. Qed.

Lemma add_attr_reserved_name :
  add_attr sample_class dunder_name
  = (sample_class, Raise (TypeError_setattr "__name__")).
Proof. reflexivity. Qed.

(** C9, as stated for every class, fails: the builtin type [int] takes no
    attribute, so that [add_attr(int)(bump)] raises [TypeError] instead of
    returning [bump], and attaches nothing. *)
Lemma add_attr_refused_by_int :
  ¬ ((add_attr int_class bump).2 = Return bump
     ∧ ∃ wrapper,
         cls_dict (add_attr int_class bump).1 !! fn_name bump
         = Some (AFunc wrapper)
         ∧ ∀ args kwargs world,
             fn_call wrapper args kwargs world
             = fn_call bump args kwargs world).
Proof. intros [Hreturned _]. vm_compute in Hreturned. discriminate. Qed.

(** C9, amended: for every object [cls] that takes a function under the
    name [func.__name__], [add_attr(cls)(func)] returns [func] itself, and
    afterwards the attribute of [cls] named [func.__name__] is a wrapper
    whose call on any positional and keyword arguments, in any state, has
    the outcome and the effect of the call of [func] on them. *)
Theorem add_attr_transparent {World : Type} {k : kind}
    (cls : pyclass World k) (func : pyfunc World) :
  refuses k (fn_name func) = None →
  (add_attr cls func).2 = Return func
  ∧ ∃ wrapper,
      cls_dict (add_attr cls func).1 !! fn_name func = Some (AFunc wrapper)
      ∧ fn_name wrapper = fn_name func
      ∧ ∀ args kwargs world,
          fn_call wrapper args kwargs world = fn_call func args kwargs world.
Proof.
  intros Hok. rewrite add_attr_result, add_attr_object, Hok.
  split; [reflexivity |].
  exists (wraps func (mkFunc "_wrapper" None None (_wrapper func))).
  split_and!.
  - simpl. by rewrite dict_lookup_insert_eq.
  - reflexivity.
  - intros args kwargs world. simpl. apply _wrapper_call.
Qed.

Lemma add_attr_transparent_witness :
  refuses HeapClass (fn_name bump) = None
  ∧ (add_attr sample_class bump).2 = Return bump
  ∧ ∃ wrapper,
      cls_dict (add_attr sample_class bump).1 !! fn_name bump
      = Some (AFunc wrapper)
      ∧ fn_name wrapper = fn_name bump
      ∧ ∀ args kwargs world,
          fn_call wrapper args kwargs world = fn_call bump args kwargs world.
Proof.
  split; [reflexivity |].
  apply (add_attr_transparent sample_class bump). reflexivity.
Defined.

(** ** The functions decorated in the file *)

Section CustomFacts.

Context {World : Type}.
Variable load : string → action World pyobj.
Variable get_attr : pyobj → string → action World pyobj.
Variable call : pyobj → list pyobj → action World pyobj.
Variable operator : string → list pyobj → action World pyobj.

Lemma add_column3_unbound_lit self world withColumn world' :
  get_attr self "withColumn" world = (Return withColumn, world') →
  load "lit" world' = (Raise (NameError "lit"), world') →
  fn_call (add_column3 load get_attr call self) [] [] world
  = (Raise (NameError "lit"), world').
Proof.
  intros Hattr Hlit. simpl.
  erewrite bind_returned by reflexivity.
  erewrite bind_returned by exact Hattr.
  by erewrite bind_raised by exact Hlit.
Qed.

Lemma drop_fusion_gdpp_events_unbound_col self world where1 world' :
  get_attr self "where" world = (Return where1, world') →
  load "col" world' = (Raise (NameError "col"), world') →
  fn_call (drop_fusion_gdpp_events load get_attr call operator self) [] []
    world
  = (Raise (NameError "col"), world').
Proof.
  intros Hattr Hcol. simpl.
  erewrite bind_returned by reflexivity.
  erewrite bind_returned by exact Hattr.
  by erewrite bind_raised by exact Hcol.
Qed.

End CustomFacts.

(** ** Importing add_attributes *)

Lemma import_from_site site module name ns v st :
  stdlib !! module = None →
  site !! module = Some ns →
  ns !! name = Some v →
  import_from site module name st = (Return v, st).
Proof. intros Hstd Hsite Hns. unfold import_from. by rewrite Hstd, Hsite, Hns. Qed.

Lemma import_from_missing site module name st :
  stdlib !! module = None →
  site !! module = None →
  import_from site module name st
  = (Raise (ModuleNotFoundError (first_missing site module)), st).
Proof. intros Hstd Hsite. unfold import_from. by rewrite Hstd, Hsite. Qed.

(** Without the package [pyspark] it is [pyspark] that is reported. *)
Lemma first_missing_pyspark site :
  site !! "pyspark" = None →
  first_missing site "pyspark.sql.dataframe" = "pyspark".
Proof.
  intros Hsite. unfold first_missing.
  change (dotted_prefixes "" "pyspark.sql.dataframe")
    with [ "pyspark"; "pyspark.sql"; "pyspark.sql.dataframe" ].
  by rewrite filter_cons_True.
Qed.

Lemma import_wraps site st :
  import_from site "functools" "wraps" st
  = (Return (PFunction "functools.wraps"), st).
Proof. reflexivity. Qed.

Lemma pyspark_importable_class site :
  pyspark_importable site = true →
  ∃ ns q, site !! "pyspark.sql.dataframe" = Some ns
          ∧ ns !! "DataFrame" = Some (PClass q).
Proof.
  unfold pyspark_importable. intros H.
  destruct (site !! "pyspark.sql.dataframe") as [ns|]; [|done].
  destruct (ns !! "DataFrame") as [[]|] eqn:E; try done. eauto.
Qed.

(** Loading a global name during the import, by where it is found. *)
Lemma load_bound name v st :
  globals st !! name = Some v → load name st = (Return v, st).
Proof. intros H. unfold load, load_global. by rewrite H. Qed.

Lemma load_builtin name st :
  globals st !! name = None → is_builtin name = true →
  load name st = (Return (PBuiltin name), st).
Proof. intros H Hb. unfold load, load_global. by rewrite H, Hb. Qed.

Lemma load_unbound name st :
  globals st !! name = None → is_builtin name = false →
  load name st = (Raise (NameError name), st).
Proof. intros H Hb. unfold load, load_global. by rewrite H, Hb. Qed.

Ltac lookup_name :=
  cbn [globals];
  repeat (rewrite lookup_insert_eq || rewrite lookup_insert_ne by done);
  try reflexivity.

Tactic Notation "returned" "by" tactic3(tac) :=
  erewrite bind_returned by tac.

(** C10: wherever [pyspark] can be imported, importing the module raises
    [NameError] for [df] at the statement [df.custom.add_column3()]; the
    second half of the file is not reached ([dataframe_extension] stays
    unbound), and the names [lit] and [col] that the inner functions
    refer to are bound neither by the module nor by the builtins. *)
Theorem import_raises_NameError get_attr call site :
  pyspark_importable site = true →
  ∃ st, import_module get_attr call site = (Raise (NameError "df"), st)
        ∧ globals st !! "dataframe_extension" = None
        ∧ load "lit" st = (Raise (NameError "lit"), st)
        ∧ load "col" st = (Raise (NameError "col"), st).
Proof.
  intros (ns & q & Hsite & Hns)%pyspark_importable_class.
  unfold import_module, module_body.
  returned by (by eapply import_from_site).
  returned by reflexivity.
  returned by (apply import_wraps).
  do 3 (returned by reflexivity).
  returned by (apply load_builtin; lookup_name).
  returned by (apply load_bound; lookup_name).
  returned by reflexivity.
  returned by (apply load_bound; lookup_name).
  returned by reflexivity.
  eexists. split.
  - apply bind_raised. apply load_unbound; lookup_name.
  - split_and!.
    + lookup_name.
    + apply load_unbound; lookup_name.
    + apply load_unbound; lookup_name.
Qed.

(** Without [pyspark] the import stops at its first statement. *)
Lemma import_without_pyspark get_attr call site :
  site !! "pyspark.sql.dataframe" = None →
  import_module get_attr call site
  = (Raise (ModuleNotFoundError (first_missing site "pyspark.sql.dataframe")),
     initial_state).
Proof.
  intros Hsite. unfold import_module, module_body.
  apply bind_raised. by apply import_from_missing.
Qed.

(** An installation with [pyspark], on which objects other than those
    the file creates have no attribute and cannot be called. *)
Lemma import_raises_NameError_witness :
  pyspark_importable site_with_pyspark = true
  ∧ ∃ st,
      import_module (λ _ name, throw (AttributeError name))
        (λ _ _, throw (AttributeError "__call__")) site_with_pyspark
      = (Raise (NameError "df"), st)
      ∧ globals st !! "dataframe_extension" = None
      ∧ load "lit" st = (Raise (NameError "lit"), st)
      ∧ load "col" st = (Raise (NameError "col"), st).
Proof.
  split; [reflexivity |].
  apply import_raises_NameError. reflexivity.
Defined.

(** * Further properties of the code *)

(** ** Calls of scd_merge with any number of arguments *)

Lemma scd_merge_call_by_arity (args : list pyobj) :
  scd_merge_call args =
    if decide (length args < 3)%nat then
      Raise (TypeError_missing "scd_merge"
               (drop (length args) scd_merge_params))
    else if decide (3 < length args)%nat then
      Raise (TypeError_too_many "scd_merge" 3 (length args))
    else Raise (NameError "df_merged").
Proof.
  destruct args as [|a [|b [|c [|d rest]]]].
  1-3: by rewrite decide_True by (simpl; lia).
  - rewrite !decide_False by (simpl; lia).
    rewrite scd_merge_call_3. apply scd_merge_unbound.
  - rewrite decide_False, decide_True by (simpl; lia).
    unfold scd_merge_call, bind_args. cbn [bind_positional scd_merge_params].
    cbn [mbind outcome_bind]. do 2 f_equal. simpl. lia.
Qed.

(** X1: a call of [scd_merge] with fewer than three positional arguments
    raises [TypeError] naming the parameters left without a value, with
    more than three it raises [TypeError] for the surplus, and with
    exactly three it raises [NameError] for [df_merged]. *)
Theorem scd_merge_call_outcome (args : list pyobj) :
  scd_merge_call args =
    if decide (length args < 3)%nat then
      Raise (TypeError_missing "scd_merge"
               (drop (length args) scd_merge_params))
    else if decide (3 < length args)%nat then
      Raise (TypeError_too_many "scd_merge" 3 (length args))
    else Raise (NameError "df_merged").
Proof. apply scd_merge_call_by_arity. Qed.

(** X2: no call of [scd_merge] returns, whatever the number and the
    values of its positional arguments; the exception is a [TypeError]
    exactly when the number of arguments is not three. *)
Theorem scd_merge_call_never_returns (args : list pyobj) :
  returns (scd_merge_call args) = false
  ∧ raises_class (scd_merge_call args) "TypeError"
    = bool_decide (length args ≠ 3%nat).
Proof.
  rewrite scd_merge_call_by_arity.
  destruct (decide (length args < 3)%nat);
    [| destruct (decide (3 < length args)%nat)]; (split; [done |]).
  - by rewrite (bool_decide_eq_true_2 (length args ≠ 3%nat)) by lia.
  - by rewrite (bool_decide_eq_true_2 (length args ≠ 3%nat)) by lia.
  - by rewrite (bool_decide_eq_false_2 (length args ≠ 3%nat))
      by (intros ?; lia).
Qed.

(** ** The decorator on a dictionary of attributes *)

Section DecoratorAlgebra.

Context {World : Type} {k : kind}.
Implicit Types (cls : pyclass World k) (f g func : pyfunc World).

(** X3: decorating [func] leaves every attribute of [cls] under another
    name, and the name of [cls], as they were. *)
Theorem add_attr_frame cls func name :
  name ≠ fn_name func →
  getattr (add_attr cls func).1 name = getattr cls name
  ∧ cls_name (add_attr cls func).1 = cls_name cls.
Proof.
  intros Hne. split; [| apply add_attr_cls_name].
  unfold getattr. by rewrite add_attr_other.
Qed.

(** X4: the only name a decoration can bind is [func.__name__]: where
    [cls] takes the attribute, the attribute names afterwards are the old
    ones and that one, and where it refuses they are the old ones. *)
Theorem add_attr_dom cls func :
  dom (cls_dict (add_attr cls func).1)
  = match refuses k (fn_name func) with
    | Some _ => dom (cls_dict cls)
    | None => {[ fn_name func ]} ∪ dom (cls_dict cls)
    end.
Proof.
  rewrite add_attr_object.
  destruct (refuses k (fn_name func)); [done |].
  simpl. apply dict_dom_insert.
Qed.

(** X5: two functions of the same [__name__] decorated one after the
    other on the same object: the second replaces the first, and the
    object is as if the first had never been attached. *)
Theorem add_attr_same_name f g cls :
  fn_name f = fn_name g →
  (add_attr (add_attr cls f).1 g).1 = (add_attr cls g).1.
Proof.
  intros Hname. rewrite !add_attr_object, Hname.
  destruct (refuses k (fn_name g)); [done |].
  apply pyclass_eq; [reflexivity |].
  simpl. apply dict_insert_insert_eq.
Qed.

(** X6: functions of different [__name__] can be attached in either
    order: every attribute read from the object afterwards is the same
    (the dictionary lists them in the order in which they were
    attached). *)
Theorem add_attr_commute f g cls name :
  fn_name f ≠ fn_name g →
  getattr (add_attr (add_attr cls f).1 g).1 name
  = getattr (add_attr (add_attr cls g).1 f).1 name.
Proof.
  intros Hname. unfold getattr. rewrite !add_attr_object.
  destruct (refuses k (fn_name f)), (refuses k (fn_name g));
    cbn [cls_dict]; try done.
  destruct (decide (name = fn_name f)) as [->|Hf];
    [| destruct (decide (name = fn_name g)) as [->|Hg]].
  - rewrite dict_lookup_insert_ne by done.
    by rewrite !dict_lookup_insert_eq.
  - rewrite dict_lookup_insert_eq.
    rewrite (dict_lookup_insert_ne _ (fn_name f)) by done.
    by rewrite dict_lookup_insert_eq.
  - by rewrite !dict_lookup_insert_ne.
Qed.

(** X20: where [cls] refuses the attribute (a builtin type, a reserved
    name), the decoration raises what [setattr] raises, returns nothing
    and leaves [cls] as it was. *)
Theorem add_attr_refused cls func e :
  refuses k (fn_name func) = Some e →
  add_attr cls func = (cls, Raise e).
Proof.
  intros Hno. unfold add_attr, decorator, setattr. by rewrite Hno.
Qed.

End DecoratorAlgebra.

(** The two orders of attaching [bump] and [peek] to a class give
    dictionaries that list them differently. *)
Lemma add_attr_order_kept :
  cls_dict (add_attr (add_attr sample_class bump).1 peek).1
  ≠ cls_dict (add_attr (add_attr sample_class peek).1 bump).1.
Proof.
  intros H. apply (f_equal (λ d, (dict_items d).*1)) in H.
  vm_compute in H. discriminate.
Qed.

Lemma add_attr_frame_witness :
  "peek" ≠ fn_name bump
  ∧ getattr (add_attr (add_attr sample_class peek).1 bump).1 "peek"
    = getattr (add_attr sample_class peek).1 "peek"
  ∧ cls_name (add_attr (add_attr sample_class peek).1 bump).1
    = cls_name (add_attr sample_class peek).1.
Proof.
  split; [done |].
  apply (add_attr_frame (add_attr sample_class peek).1 bump "peek"). done.
Defined.

Lemma add_attr_same_name_witness :
  fn_name bump = fn_name bump_reset
  ∧ (add_attr (add_attr sample_class bump).1 bump_reset).1
    = (add_attr sample_class bump_reset).1.
Proof.
  split; [reflexivity |].
  apply (add_attr_same_name bump bump_reset sample_class). reflexivity.
Defined.

Lemma add_attr_commute_witness :
  fn_name bump ≠ fn_name peek
  ∧ getattr (add_attr (add_attr sample_class bump).1 peek).1 "bump"
    = getattr (add_attr (add_attr sample_class peek).1 bump).1 "bump".
Proof.
  split; [done |].
  apply (add_attr_commute bump peek sample_class "bump"). done.
Defined.

Lemma add_attr_refused_witness :
  refuses ImmutableType (fn_name bump) = Some (TypeError_setattr "bump")
  ∧ add_attr int_class bump = (int_class, Raise (TypeError_setattr "bump")).
Proof.
  split; [reflexivity |].
  apply (add_attr_refused int_class bump). reflexivity.
Defined.

(** ** custom, dataframe_extension and the calls of what they attach *)

Section CustomAlgebra.

Context {World : Type}.
Variable load : string → action World pyobj.
Variable get_attr : pyobj → string → action World pyobj.
Variable call : pyobj → list pyobj → action World pyobj.
Variable operator : string → list pyobj → action World pyobj.
Implicit Types (self : pyobj) (obj : pyclass World FunctionObject)
  (world : World).

(** Both decorations of [custom(self)] are accepted by the function
    object. *)
Lemma custom_outcome self obj :
  custom load get_attr call self obj
  = (mkClass (cls_name obj)
       (<["add_column4" :=
            AFunc (wraps (add_column4 load get_attr call self)
                     (mkFunc "_wrapper" None None
                        (_wrapper (add_column4 load get_attr call self))))]>
          (<["add_column3" :=
               AFunc (wraps (add_column3 load get_attr call self)
                        (mkFunc "_wrapper" None None
                           (_wrapper
                              (add_column3 load get_attr call self))))]>
             (cls_dict obj))),
     Return ()).
Proof. reflexivity. Qed.

Lemma dataframe_extension_outcome self obj :
  dataframe_extension load get_attr call operator self obj
  = (mkClass (cls_name obj)
       (<["drop_fusion_gdpp_events" :=
            AFunc (wraps
                     (drop_fusion_gdpp_events load get_attr call operator
                        self)
                     (mkFunc "_wrapper" None None
                        (_wrapper
                           (drop_fusion_gdpp_events load get_attr call
                              operator self))))]>
          (cls_dict obj)),
     Return ()).
Proof. reflexivity. Qed.

Lemma call_attribute_add_column3 self obj world :
  call_attribute call (custom load get_attr call self obj).1 "add_column3"
    world
  = fn_call (add_column3 load get_attr call self) [] [] world.
Proof.
  rewrite custom_outcome. unfold call_attribute, getattr. cbn [fst cls_dict].
  rewrite dict_lookup_insert_ne by done. rewrite dict_lookup_insert_eq.
  apply _wrapper_call.
Qed.

Lemma call_attribute_add_column4 self obj world :
  call_attribute call (custom load get_attr call self obj).1 "add_column4"
    world
  = fn_call (add_column4 load get_attr call self) [] [] world.
Proof.
  rewrite custom_outcome. unfold call_attribute, getattr. cbn [fst cls_dict].
  rewrite dict_lookup_insert_eq. apply _wrapper_call.
Qed.

(** X8: [custom(self)] completes, binds the two names [add_column3] and
    [add_column4] on the function object and no other, and keeps the
    object's name. *)
Theorem custom_binds_two_names self obj :
  (custom load get_attr call self obj).2 = Return ()
  ∧ dom (cls_dict (custom load get_attr call self obj).1)
    = {[ "add_column3"; "add_column4" ]} ∪ dom (cls_dict obj)
  ∧ cls_name (custom load get_attr call self obj).1 = cls_name obj.
Proof.
  rewrite custom_outcome. split_and!; [reflexivity | | reflexivity].
  cbn [fst cls_dict]. rewrite !dict_dom_insert.
  apply set_eq. intros name. rewrite !elem_of_union, !elem_of_singleton.
  tauto.
Qed.

(** X9: every attribute of the function object under a name other than
    [add_column3] and [add_column4] is what it was before
    [custom(self)]. *)
Theorem custom_frame self obj name :
  name ≠ "add_column3" → name ≠ "add_column4" →
  getattr (custom load get_attr call self obj).1 name = getattr obj name.
Proof.
  intros H3 H4. rewrite custom_outcome. unfold getattr. cbn [fst cls_dict].
  by rewrite !dict_lookup_insert_ne.
Qed.

(** X10: the closures are stored on the one function object [custom]:
    running [custom] for a second table replaces what the first run
    attached, so that the object is as after the second run alone. *)
Theorem custom_last_self_wins self1 self2 obj :
  custom load get_attr call self2 (custom load get_attr call self1 obj).1
  = custom load get_attr call self2 obj.
Proof.
  rewrite !custom_outcome. cbn [fst cls_dict cls_name]. do 2 f_equal.
  rewrite (dict_insert_present_commute _ "add_column3" "add_column4")
    by (done || by rewrite dict_lookup_insert_eq).
  by rewrite dict_insert_insert_eq, dict_insert_insert_eq.
Qed.

(** X11: [self.custom.add_column3()] runs the body of [add_column3] for
    this [self], whatever the function object carried before under that
    name. *)
Theorem use_it_calls_add_column3 self obj world :
  use_it load get_attr call self obj world
  = fn_call (add_column3 load get_attr call self) [] [] world.
Proof.
  rewrite <- call_attribute_add_column3 with (obj := obj).
  unfold use_it. by rewrite custom_outcome.
Qed.

(** X12: where [self] has a [withColumn] and [lit] is no global name,
    [self.custom.add_column3()] and the call of the attached
    [add_column4] raise [NameError] for [lit], in the state the
    attribute access left. *)
Theorem use_it_raises_NameError self obj world withColumn world' :
  get_attr self "withColumn" world = (Return withColumn, world') →
  load "lit" world' = (Raise (NameError "lit"), world') →
  use_it load get_attr call self obj world = (Raise (NameError "lit"), world')
  ∧ call_attribute call (custom load get_attr call self obj).1 "add_column4"
      world
    = (Raise (NameError "lit"), world').
Proof.
  intros Hattr Hlit. split.
  - rewrite <- (add_column3_unbound_lit load get_attr call self world
                  withColumn world' Hattr Hlit).
    rewrite <- call_attribute_add_column3 with (obj := obj).
    unfold use_it. by rewrite custom_outcome.
  - rewrite call_attribute_add_column4. simpl.
    erewrite bind_returned by reflexivity.
    erewrite bind_returned by exact Hattr.
    by erewrite bind_raised by exact Hlit.
Qed.

(** X13: the attached [add_column3] takes no argument: called with a
    positional or a keyword argument it raises [TypeError] before it
    looks at [self], and leaves the state as it was. *)
Theorem attached_rejects_arguments self obj args kwargs world :
  args ≠ [] ∨ kwargs ≠ [] →
  ∃ attached e,
    cls_dict (custom load get_attr call self obj).1 !! "add_column3"
    = Some (AFunc attached)
    ∧ fn_call attached args kwargs world = (Raise e, world)
    ∧ exn_class e = "TypeError".
Proof.
  intros Hargs. rewrite custom_outcome. cbn [fst cls_dict].
  rewrite dict_lookup_insert_ne by done. rewrite dict_lookup_insert_eq.
  eexists _,
    (match kwargs with
     | (keyword, _) :: _ => TypeError_unexpected_keyword "add_column3" keyword
     | [] => TypeError_too_many "add_column3" 0 (length args)
     end).
  split; [reflexivity |].
  cbn [fn_call wraps]. rewrite _wrapper_call. cbn [fn_call add_column3].
  destruct kwargs as [|[keyword v] kwargs].
  - destruct args as [|a args]; [by destruct Hargs |].
    split; [| reflexivity]. by apply bind_raised.
  - split; [| reflexivity]. by apply bind_raised.
Qed.

(** X14: where [self] has a [where] and [col] is no global name,
    [self.dataframe_extension.drop_fusion_gdpp_events()] raises
    [NameError] for [col], in the state the attribute access left. *)
Theorem use_extension_raises_NameError self obj world where1 world' :
  get_attr self "where" world = (Return where1, world') →
  load "col" world' = (Raise (NameError "col"), world') →
  use_extension load get_attr call operator self obj world
  = (Raise (NameError "col"), world').
Proof.
  intros Hattr Hcol. unfold use_extension.
  rewrite dataframe_extension_outcome.
  unfold call_attribute, getattr. cbn [cls_dict].
  rewrite dict_lookup_insert_eq. cbn [fn_call wraps]. rewrite _wrapper_call.
  by apply drop_fusion_gdpp_events_unbound_col with where1.
Qed.

(** X15: [dataframe_extension(self)] binds the one name
    [drop_fusion_gdpp_events] on the function object, and a run for a
    second table replaces what the first run attached. *)
Theorem dataframe_extension_binds_one_name self1 self2 obj :
  dom (cls_dict
         (dataframe_extension load get_attr call operator self1 obj).1)
  = {[ "drop_fusion_gdpp_events" ]} ∪ dom (cls_dict obj)
  ∧ dataframe_extension load get_attr call operator self2
      (dataframe_extension load get_attr call operator self1 obj).1
    = dataframe_extension load get_attr call operator self2 obj.
Proof.
  rewrite !dataframe_extension_outcome. cbn [fst cls_dict cls_name]. split.
  - apply dict_dom_insert.
  - do 2 f_equal. apply dict_insert_insert_eq.
Qed.

End CustomAlgebra.

Lemma custom_frame_witness :
  "peek" ≠ "add_column3" ∧ "peek" ≠ "add_column4"
  ∧ getattr
      (custom no_global any_attribute any_call PNone
         (add_attr custom_function peek).1).1 "peek"
    = getattr (add_attr custom_function peek).1 "peek".
Proof.
  split; [done |]. split; [done |].
  apply (custom_frame no_global any_attribute any_call PNone
           (add_attr custom_function peek).1 "peek"); done.
Defined.

Lemma use_it_raises_NameError_witness :
  any_attribute PNone "withColumn" 0%nat
  = (Return (PObject "withColumn"), 0%nat)
  ∧ no_global "lit" 0%nat = (Raise (NameError "lit"), 0%nat)
  ∧ use_it no_global any_attribute any_call PNone custom_function 0%nat
    = (Raise (NameError "lit"), 0%nat)
  ∧ call_attribute any_call
      (custom no_global any_attribute any_call PNone custom_function).1
      "add_column4" 0%nat
    = (Raise (NameError "lit"), 0%nat).
Proof.
  split; [reflexivity |]. split; [reflexivity |].
  apply (use_it_raises_NameError no_global any_attribute any_call PNone
           custom_function 0%nat (PObject "withColumn") 0%nat); reflexivity.
Defined.

Lemma attached_rejects_arguments_witness :
  ([PInt 1] ≠ [] ∨ ([] : list (string * pyobj)) ≠ [])
  ∧ ∃ attached e,
      cls_dict
        (custom no_global any_attribute any_call PNone custom_function).1
        !! "add_column3" = Some (AFunc attached)
      ∧ fn_call attached [PInt 1] [] 0%nat = (Raise e, 0%nat)
      ∧ exn_class e = "TypeError".
Proof.
  split; [by left |].
  apply (attached_rejects_arguments no_global any_attribute any_call PNone
           custom_function [PInt 1] [] 0%nat).
  by left.
Defined.

Lemma use_extension_raises_NameError_witness :
  any_attribute PNone "where" 0%nat = (Return (PObject "where"), 0%nat)
  ∧ no_global "col" 0%nat = (Raise (NameError "col"), 0%nat)
  ∧ use_extension no_global any_attribute any_call any_operator PNone
      custom_function 0%nat
    = (Raise (NameError "col"), 0%nat).
Proof.
  split; [reflexivity |]. split; [reflexivity |].
  apply (use_extension_raises_NameError no_global any_attribute any_call
           any_operator PNone custom_function 0%nat (PObject "where") 0%nat);
    reflexivity.
Defined.

(** ** The import, in any installation *)

Lemma import_from_lacks site module name ns st :
  stdlib !! module = None →
  site !! module = Some ns →
  ns !! name = None →
  import_from site module name st = (Raise (ImportError module name), st).
Proof.
  intros Hstd Hsite Hns. unfold import_from. by rewrite Hstd, Hsite, Hns.
Qed.

(** X16: in no installation does the import complete: with or without
    [pyspark], whatever attribute access and calls do, executing the
    module ends in an exception, and [dataframe_extension] is not bound
    at that point. *)
Theorem import_never_completes get_attr call site :
  ∃ e st,
    import_module get_attr call site = (Raise e, st)
    ∧ globals st !! "dataframe_extension" = None.
Proof.
  unfold import_module, module_body.
  destruct (site !! "pyspark.sql.dataframe") as [ns|] eqn:Hsite; cycle 1.
  { eexists _, _.
    split; [apply bind_raised; by apply import_from_missing | reflexivity]. }
  destruct (ns !! "DataFrame") as [v|] eqn:Hns; cycle 1.
  { eexists _, _.
    split; [apply bind_raised; by eapply import_from_lacks | reflexivity]. }
  returned by (by eapply import_from_site).
  returned by reflexivity.
  returned by (apply import_wraps).
  do 3 (returned by reflexivity).
  returned by (apply load_builtin; lookup_name).
  returned by (apply load_bound; lookup_name).
  returned by reflexivity.
  returned by (apply load_bound; lookup_name).
  destruct v;
    try (eexists _, _; split; [by apply bind_raised | lookup_name]);
    (returned by reflexivity);
    (eexists _, _; split;
       [apply bind_raised; apply load_unbound; lookup_name | lookup_name]).
Qed.

(** X17: with [pyspark] installed the import fails after it has changed
    the class: at the [NameError] the property [custom] is already set on
    [DataFrame], the property [dataframe_extension] is not, and the module
    has bound [DataFrame], [wraps], [add_attr] and [custom]. *)
Theorem import_sets_custom_before_failing get_attr call site ns q :
  site !! "pyspark.sql.dataframe" = Some ns →
  ns !! "DataFrame" = Some (PClass q) →
  ∃ st,
    import_module get_attr call site = (Raise (NameError "df"), st)
    ∧ attrs st !! (q, "custom") = Some (PProperty (PFunction "custom"))
    ∧ attrs st !! (q, "dataframe_extension") = None
    ∧ globals st !! "DataFrame" = Some (PClass q)
    ∧ globals st !! "wraps" = Some (PFunction "functools.wraps")
    ∧ globals st !! "add_attr" = Some (PFunction "add_attr")
    ∧ globals st !! "custom" = Some (PFunction "custom").
Proof.
  intros Hsite Hns. unfold import_module, module_body.
  returned by (by eapply import_from_site).
  returned by reflexivity.
  returned by (apply import_wraps).
  do 3 (returned by reflexivity).
  returned by (apply load_builtin; lookup_name).
  returned by (apply load_bound; lookup_name).
  returned by reflexivity.
  returned by (apply load_bound; lookup_name).
  returned by reflexivity.
  eexists. split; [apply bind_raised; apply load_unbound; lookup_name |].
  cbn [attrs]. split_and!; lookup_name.
Qed.

(** X18: without the package [pyspark] the import raises
    [ModuleNotFoundError] for [pyspark] at its first statement and binds
    nothing. *)
Theorem import_needs_pyspark get_attr call site :
  site !! "pyspark" = None →
  site !! "pyspark.sql.dataframe" = None →
  import_module get_attr call site
  = (Raise (ModuleNotFoundError "pyspark"), initial_state).
Proof.
  intros Hpackage Hmodule.
  rewrite import_without_pyspark by done.
  by rewrite first_missing_pyspark.
Qed.


Lemma import_sets_custom_before_failing_witness :
  site_with_pyspark !! "pyspark.sql.dataframe"
  = Some {[ "DataFrame" := PClass "pyspark.sql.dataframe.DataFrame" ]}
  ∧ ({[ "DataFrame" := PClass "pyspark.sql.dataframe.DataFrame" ]}
       : gmap string pyobj) !! "DataFrame"
    = Some (PClass "pyspark.sql.dataframe.DataFrame")
  ∧ ∃ st,
      import_module (λ _ name, throw (AttributeError name))
        (λ _ _, throw (AttributeError "__call__")) site_with_pyspark
      = (Raise (NameError "df"), st)
      ∧ attrs st !! ("pyspark.sql.dataframe.DataFrame", "custom")
        = Some (PProperty (PFunction "custom"))
      ∧ attrs st !! ("pyspark.sql.dataframe.DataFrame", "dataframe_extension")
        = None
      ∧ globals st !! "DataFrame"
        = Some (PClass "pyspark.sql.dataframe.DataFrame")
      ∧ globals st !! "wraps" = Some (PFunction "functools.wraps")
      ∧ globals st !! "add_attr" = Some (PFunction "add_attr")
      ∧ globals st !! "custom" = Some (PFunction "custom").
Proof.
  split; [reflexivity |]. split; [reflexivity |].
  apply (import_sets_custom_before_failing _ _ site_with_pyspark
           {[ "DataFrame" := PClass "pyspark.sql.dataframe.DataFrame" ]}
           "pyspark.sql.dataframe.DataFrame"); reflexivity.
Defined.

Lemma import_needs_pyspark_witness :
  (∅ : gmap string (gmap string pyobj)) !! "pyspark" = None
  ∧ (∅ : gmap string (gmap string pyobj)) !! "pyspark.sql.dataframe" = None
  ∧ import_module (λ _ name, throw (AttributeError name))
      (λ _ _, throw (AttributeError "__call__")) ∅
    = (Raise (ModuleNotFoundError "pyspark"), initial_state).
Proof.
  split; [reflexivity |]. split; [reflexivity |].
  apply (import_needs_pyspark _ _ ∅); reflexivity.
Defined.


